(** * did-jwt: the signer-algorithm registry

    A shallow embedding of the module that maps a JOSE [alg] identifier to
    a signing adapter, together with the fragment of ECMAScript the module
    relies on: dynamically typed values, ordinary objects with a prototype
    chain, [typeof], truthiness, the [in] operator, property reads and
    writes, exceptions and awaited calls. *)

From stdpp Require Import gmap strings.
From Stdlib Require Import ZArith Ascii.

Local Open Scope string_scope.

(** ** Values *)

(** The code of the three function expressions of the module (each one is
    the [sign] closure a factory returns), with the variable it captures. *)
Inductive Code :=
| ES256_sign                               (* lines 10-17 *)
| ES256K_sign (recoverable : option bool)  (* lines 21-31, [recoverable?: boolean] *)
| Ed25519_sign.                            (* lines 35-42 *)

(** A function object. Evaluating a function expression creates a new
    object each time, so a closure carries the identity it was allocated
    with besides its code. Built-ins of the host and functions created by
    callers of the module are known by name or identity only. *)
Inductive FunctionObject :=
| Closure (id : nat) (code : Code)
| Native (name : string)
| Foreign (id : nat).

(** ECMAScript values (symbols, bigints, NaN and fractions are left out;
    no function of the module tells them from the numbers kept here). An
    ordinary object is its own properties and its prototype; the one
    accessor property in play is [Object.prototype.__proto__]. *)
Inductive JSValue :=
| JSUndefined
| JSNull
| JSBoolean (b : bool)
| JSNumber (n : Z)
| JSString (s : string)
| JSFunction (f : FunctionObject)
| JSObject (props : gmap string Property) (proto : JSValue)
with Property :=
| Data (value : JSValue)
| ProtoAccessor.

Definition typeof (v : JSValue) : string :=
  match v with
  | JSUndefined => "undefined"
  | JSNull => "object"
  | JSBoolean _ => "boolean"
  | JSNumber _ => "number"
  | JSString _ => "string"
  | JSFunction _ => "function"
  | JSObject _ _ => "object"
  end.

Definition ToBoolean (v : JSValue) : bool :=
  match v with
  | JSUndefined | JSNull => false
  | JSBoolean b => b
  | JSNumber n => negb (n =? 0)%Z
  | JSString s => negb (String.eqb s "")
  | JSFunction _ | JSObject _ _ => true
  end.

Definition is_object (v : JSValue) : bool :=
  match v with JSObject _ _ => true | _ => false end.

(** The property [P] names on [O] or, failing that, along its prototype
    chain. *)
Fixpoint lookup_chain (P : string) (O : JSValue) : option Property :=
  match O with
  | JSObject props proto =>
      match props !! P with
      | Some x => Some x
      | None => lookup_chain P proto
      end
  | _ => None
  end.

Definition GetPrototypeOf (O : JSValue) : JSValue :=
  match O with JSObject _ proto => proto | _ => JSNull end.

(** [[HasProperty]] and [[Get]] of an ordinary object; the getter of
    [__proto__] answers with the prototype of the object that was read. *)
Definition HasProperty (O : JSValue) (P : string) : bool :=
  match lookup_chain P O with Some _ => true | None => false end.

Definition Get (O : JSValue) (P : string) : JSValue :=
  match lookup_chain P O with
  | Some (Data v) => v
  | Some ProtoAccessor => GetPrototypeOf O
  | None => JSUndefined
  end.

(** [Object.prototype] as the host provides it (ECMA-262, 20.1.3 and the
    legacy members of B.2.2); its own prototype is [null]. *)
Definition ObjectPrototype : JSValue :=
  JSObject
    (list_to_map
       [ ("constructor", Data (JSFunction (Native "Object")));
         ("hasOwnProperty", Data (JSFunction (Native "Object.prototype.hasOwnProperty")));
         ("isPrototypeOf", Data (JSFunction (Native "Object.prototype.isPrototypeOf")));
         ("propertyIsEnumerable", Data (JSFunction (Native "Object.prototype.propertyIsEnumerable")));
         ("toLocaleString", Data (JSFunction (Native "Object.prototype.toLocaleString")));
         ("toString", Data (JSFunction (Native "Object.prototype.toString")));
         ("valueOf", Data (JSFunction (Native "Object.prototype.valueOf")));
         ("__defineGetter__", Data (JSFunction (Native "Object.prototype.__defineGetter__")));
         ("__defineSetter__", Data (JSFunction (Native "Object.prototype.__defineSetter__")));
         ("__lookupGetter__", Data (JSFunction (Native "Object.prototype.__lookupGetter__")));
         ("__lookupSetter__", Data (JSFunction (Native "Object.prototype.__lookupSetter__")));
         ("__proto__", ProtoAccessor) ])
    JSNull.

(** ** Exceptions and effects *)

Inductive Thrown :=
| Error (message : string)      (* [new Error(message)] *)
| TypeError                     (* raised by the language; the message is the engine's *)
| Rejection (reason : JSValue). (* anything else a callee throws or rejects with *)

Inductive Result (A : Type) :=
| Ok (a : A)
| Throw (e : Thrown).
Arguments Ok {A} a.
Arguments Throw {A} e.

Global Instance Result_ret : MRet Result := @Ok.
Global Instance Result_bind : MBind Result := fun A B f r =>
  match r with
  | Ok a => f a
  | Throw e => Throw e
  end.
Global Instance Result_fmap : FMap Result := fun A B f r =>
  match r with
  | Ok a => Ok (f a)
  | Throw e => Throw e
  end.

(** A computation over a state [S] that returns or throws. An [async]
    function is read in direct style: awaiting a promise yields its value
    or rethrows its rejection. *)
Definition M (S A : Type) : Type := S -> Result A * S.

Global Instance M_ret {S} : MRet (M S) := fun A a s => (Ok a, s).
Global Instance M_bind {S} : MBind (M S) := fun A B f m s =>
  match m s with
  | (Ok a, s') => f a s'
  | (Throw e, s') => (Throw e, s')
  end.

Definition throw {S A} (e : Thrown) : M S A := fun s => (Throw e, s).
Definition lift {S A} (r : Result A) : M S A := fun s => (r, s).

(** [P in O]: a [TypeError] unless [O] is an object. Own properties of
    function objects are not recorded; the module applies [in] only to
    values whose [typeof] is ['object']. *)
Definition in_operator (P : string) (O : JSValue) : Result bool :=
  match O with
  | JSObject _ _ => Ok (HasProperty O P)
  | JSFunction _ => Ok (HasProperty ObjectPrototype P)
  | _ => Throw TypeError
  end.

(** [V.P]: a [TypeError] on [undefined] and [null]. A primitive value
    or a function reads through its wrapper prototype; the module reads
    one property this way, [recoveryParam], which no standard prototype
    holds, so such a read gives [undefined]. *)
Definition GetV (V : JSValue) (P : string) : Result JSValue :=
  match V with
  | JSUndefined | JSNull => Throw TypeError
  | _ => Ok (Get V P)
  end.

(** ** The adapters *)

(** [function instanceOfEcdsaSignature(object: any)], lines 5-7:
    [typeof object === 'object' && 'r' in object && 's' in object]. *)
Definition instanceOfEcdsaSignature (object : JSValue) : Result bool :=
  if String.eqb (typeof object) "object" then
    has_r ← in_operator "r" object;
    if has_r : bool then in_operator "s" object else Ok false
  else Ok false.

Section Adapters.

(** The world a signer acts on (a key store, an HSM, a remote service). *)
Context {S : Type}.

(** [type Signer = (data) => Promise<EcdsaSignature | string>], awaited. *)
Definition Signer : Type := string -> M S JSValue.

(** [type SignerAlgorithm = (payload, signer) => Promise<string>]. The
    annotation is not enforced at run time: the result is whatever value
    the body returns. *)
Definition SignerAlgorithm : Type := string -> Signer -> M S JSValue.

(** [toJose] and [fromJose] are imported from ['./util.js'], which is not
    among the sources; the adapters are verified for every pair of
    functions of their shape. [toJose(signature)] without a second
    argument is [toJose signature None]. *)
Variable toJose : JSValue -> option bool -> Result string.
Variable fromJose : JSValue -> Result JSValue.

(** [ES256SignerAlg], the returned [sign], lines 10-17. *)
Definition ES256SignerAlg_sign : SignerAlgorithm := fun payload signer =>
  signature ← signer payload;
  structured ← lift (instanceOfEcdsaSignature signature);
  if structured : bool then
    lift (JSString <$> toJose signature None)
  else
    mret signature.

(** [ES256KSignerAlg(recoverable)], the returned [sign], lines 21-31. *)
Definition ES256KSignerAlg_sign (recoverable : option bool) : SignerAlgorithm :=
  fun payload signer =>
    signature ← signer payload;
    structured ← lift (instanceOfEcdsaSignature signature);
    if structured : bool then
      lift (JSString <$> toJose signature recoverable)
    else
      missing ← (if default false recoverable then
                   jose ← lift (fromJose signature);
                   param ← lift (GetV jose "recoveryParam");
                   mret (String.eqb (typeof param) "undefined")
                 else mret false);
      if missing : bool then
        throw (Error "not_supported: ES256K-R not supported when signer doesn't provide a recovery param")
      else
        mret signature.

(** [Ed25519SignerAlg], the returned [sign], lines 35-42. *)
Definition Ed25519SignerAlg_sign : SignerAlgorithm := fun payload signer =>
  signature ← signer payload;
  structured ← lift (instanceOfEcdsaSignature signature);
  if negb structured then
    mret signature
  else
    throw (Error "invalid_config: expected a signer function that returns a string instead of signature object").

(** Running the code of a closure of the module. *)
Definition sign (c : Code) : SignerAlgorithm :=
  match c with
  | ES256_sign => ES256SignerAlg_sign
  | ES256K_sign recoverable => ES256KSignerAlg_sign recoverable
  | Ed25519_sign => Ed25519SignerAlg_sign
  end.

(** Calling a function value as a signer algorithm. The code of host
    built-ins and of callers' functions lies outside the module. *)
Definition call (f : JSValue) : option SignerAlgorithm :=
  match f with
  | JSFunction (Closure _ c) => Some (sign c)
  | _ => None
  end.

(** A signer instrumented with the log of the payloads it was invoked on. *)
Definition logged (signer : Signer) : string -> M (S * list string) JSValue :=
  fun payload '(s, log) =>
    let '(r, s') := signer payload s in (r, (s', (log ++ [payload])%list)).

End Adapters.

(** ** The registry *)

(** The factories, lines 9, 20 and 34: each call evaluates a function
    expression, which allocates a function object under the next free
    identity. *)
Definition ES256SignerAlg (next : nat) : FunctionObject * nat :=
  (Closure next ES256_sign, S next).

Definition ES256KSignerAlg (recoverable : option bool) (next : nat) : FunctionObject * nat :=
  (Closure next (ES256K_sign recoverable), S next).

Definition Ed25519SignerAlg (next : nat) : FunctionObject * nat :=
  (Closure next Ed25519_sign, S next).

(** The object a [const] binding names: the binding never changes, the
    object's own properties and prototype may. *)
Record Object := { own : gmap string Property; prototype : JSValue }.

Definition obj (O : Object) : JSValue := JSObject (own O) (prototype O).

(** The object literal of lines 49-59, evaluated when the module loads.
    The prototype of an object literal is [Object.prototype]. *)
Definition algorithms_literal (next : nat) : Object * nat :=
  let '(es256, next) := ES256SignerAlg next in
  let '(es256k, next) := ES256KSignerAlg None next in
  let '(es256k_r, next) := ES256KSignerAlg (Some true) next in
  let '(ed25519, next) := Ed25519SignerAlg next in
  let '(eddsa, next) := Ed25519SignerAlg next in
  ({| own := list_to_map
               [ ("ES256", Data (JSFunction es256));
                 ("ES256K", Data (JSFunction es256k));
                 ("ES256K-R", Data (JSFunction es256k_r));
                 ("Ed25519", Data (JSFunction ed25519));
                 ("EdDSA", Data (JSFunction eddsa)) ];
      prototype := ObjectPrototype |}, next).

Definition algorithms : Object := fst (algorithms_literal 0).

Definition get_state {S} : M S S := fun s => (Ok s, s).
Definition put_state {S} (s : S) : M S unit := fun _ => (Ok tt, s).

(** [O[P] = V] on an ordinary object: the setter of [__proto__] replaces
    the prototype when [V] is an object or [null] and ignores other
    values; any other assignment writes an own data property (the data
    properties of [Object.prototype] are writable). *)
Definition OrdinarySet (O : Object) (P : string) (V : JSValue) : Object :=
  match lookup_chain P (obj O) with
  | Some ProtoAccessor =>
      match V with
      | JSObject _ _ | JSFunction _ | JSNull => {| own := own O; prototype := V |}
      | _ => O
      end
  | _ => {| own := <[P := Data V]> (own O); prototype := prototype O |}
  end.

(** [function SignerAlg(alg: string)], lines 61-65. *)
Definition SignerAlg (alg : string) : M Object JSValue :=
  algorithms ← get_state;
  let impl := Get (obj algorithms) alg in
  if negb (ToBoolean impl) then
    throw (Error ("not_supported: Unsupported algorithm " ++ alg))
  else
    mret impl.

(** [function AddSigningAlgorithm(alg: string, impl: SignerAlgorithm)],
    lines 76-90. The parameter types are not enforced at run time, which
    is what the first two guards are for; past the first guard [alg] is a
    string, the property key and the text of [${alg}]. *)
Definition AddSigningAlgorithm (alg impl : JSValue) : M Object unit :=
  match alg with
  | JSString name =>
      if negb (ToBoolean alg) || negb (String.eqb (typeof alg) "string") then
        throw (Error "Invalid algorithm name: must be a non-empty string")
      else if negb (ToBoolean impl) || negb (String.eqb (typeof impl) "function") then
        throw (Error "Invalid implementation: must be a function")
      else
        algorithms ← get_state;
        present ← lift (in_operator name (obj algorithms));
        if present : bool then
          throw (Error ("Algorithm '" ++ name ++ "' already exists"))
        else
          put_state (OrdinarySet algorithms name impl)
  | _ =>
      (* [typeof alg !== 'string'] *)
      throw (Error "Invalid algorithm name: must be a non-empty string")
  end.

(** A call of the module's interface, and the registry after a sequence
    of calls. A call that throws leaves its caller free to go on. *)
Inductive Call :=
| CallSignerAlg (alg : string)
| CallAddSigningAlgorithm (alg impl : JSValue).

Definition perform (c : Call) : M Object JSValue :=
  match c with
  | CallSignerAlg alg => SignerAlg alg
  | CallAddSigningAlgorithm alg impl =>
      _ ← AddSigningAlgorithm alg impl; mret JSUndefined
  end.

Definition after (calls : list Call) (O : Object) : Object :=
  foldl (fun O c => snd (perform c O)) O calls.

(** ** The JOSE utilities *)

(** The base64url alphabet of RFC 4648, section 5; no padding. *)
Definition base64url_alphabet : string :=
  "ABCDEFGHIJKLMNOPQRSTUVWXYZabcdefghijklmnopqrstuvwxyz0123456789-_".

Definition sextet_to_char (n : N) : ascii :=
  default "A"%char (String.get (N.to_nat n) base64url_alphabet).

Fixpoint index_of (c : ascii) (alphabet : string) : option N :=
  match alphabet with
  | EmptyString => None
  | String a rest =>
      if Ascii.eqb a c then Some 0%N else N.succ <$> index_of c rest
  end.

Fixpoint base64url_encode (bytes : list N) : string :=
  match bytes with
  | a :: b :: c :: rest =>
      let w := (a * 65536 + b * 256 + c)%N in
      String (sextet_to_char (w / 262144))
        (String (sextet_to_char ((w / 4096) mod 64))
           (String (sextet_to_char ((w / 64) mod 64))
              (String (sextet_to_char (w mod 64)) (base64url_encode rest))))
  | [a; b] =>
      let w := ((a * 256 + b) * 4)%N in
      String (sextet_to_char (w / 4096))
        (String (sextet_to_char ((w / 64) mod 64))
           (String (sextet_to_char (w mod 64)) EmptyString))
  | [a] =>
      let w := (a * 16)%N in
      String (sextet_to_char (w / 64)) (String (sextet_to_char (w mod 64)) EmptyString)
  | [] => EmptyString
  end.

Fixpoint sextets_to_bytes (sextets : list N) : option (list N) :=
  match sextets with
  | a :: b :: c :: d :: rest =>
      let w := (a * 262144 + b * 4096 + c * 64 + d)%N in
      tail ← sextets_to_bytes rest;
      Some ((w / 65536) :: ((w / 256) mod 256) :: (w mod 256) :: tail)%N
  | [a; b; c] =>
      let w := ((a * 4096 + b * 64 + c) / 4)%N in
      Some [(w / 256)%N; (w mod 256)%N]
  | [a; b] => Some [((a * 64 + b) / 16)%N]
  | [_] => None
  | [] => Some []
  end.

Definition base64url_decode (text : string) : option (list N) :=
  sextets ← mapM (fun c => index_of c base64url_alphabet) (String.list_ascii_of_string text);
  sextets_to_bytes sextets.

Definition bytes_of_string (s : string) : list N :=
  N_of_ascii <$> String.list_ascii_of_string s.

Definition string_of_bytes (bytes : list N) : string :=
  String.string_of_list_ascii (ascii_of_N <$> bytes).

(** Modelled from the spec: [toJose] of ['./util.js'], which is not among
    the sources. "If the Signer returns a structured EcdsaSignature, encode
    r‖s (and, for the -R variant, append the recovery byte) as base64url",
    with "EcdsaSignature: { r: bytes, s: bytes, recoveryParam?: 0|1 }". A
    byte string is held as a string of 8-bit characters. The spec does not
    say what happens on a signature of another shape or when the recovery
    byte is asked for and absent; the model fails there. *)
Definition toJose_model (signature : JSValue) (recoverable : option bool) : Result string :=
  match Get signature "r", Get signature "s" with
  | JSString r, JSString s =>
      if default false recoverable then
        match Get signature "recoveryParam" with
        | JSNumber v =>
            Ok (base64url_encode (bytes_of_string r ++ bytes_of_string s ++ [Z.to_N v])%list)
        | _ => Throw TypeError
        end
      else Ok (base64url_encode (bytes_of_string r ++ bytes_of_string s)%list)
  | _, _ => Throw TypeError
  end.

(** Modelled from the spec: [fromJose] of ['./util.js'], which is not
    among the sources. It undoes [toJose]: the decoded bytes are r‖s,
    followed by the recovery byte when the signature is in the recoverable
    format; "a pre-encoded signature lacking a recovery byte" decodes to a
    signature without [recoveryParam]. The model fails on anything else. *)
Definition fromJose_model (signature : JSValue) : Result JSValue :=
  match signature with
  | JSString text =>
      match base64url_decode text with
      | Some bytes =>
          let r := Data (JSString (string_of_bytes (take 32 bytes))) in
          let s := Data (JSString (string_of_bytes (take 32 (drop 32 bytes)))) in
          match drop 64 bytes with
          | [] =>
              if (length bytes =? 64)%nat then
                Ok (JSObject (list_to_map [("r", r); ("s", s)]) ObjectPrototype)
              else Throw TypeError
          | [v] =>
              Ok (JSObject
                    (list_to_map [("r", r); ("s", s); ("recoveryParam", Data (JSNumber (Z.of_N v)))])
                    ObjectPrototype)
          | _ => Throw TypeError
          end
      | None => Throw TypeError
      end
  | _ => Throw TypeError
  end.

(** The adapter the registry resolves [alg] to when the module has just
    been loaded: [SignerAlg(alg)], then the code of the result. *)
Definition builtin_adapter {S} toJose fromJose (alg : string) : option (@SignerAlgorithm S) :=
  match fst (SignerAlg alg algorithms) with
  | Ok f => call toJose fromJose f
  | Throw _ => None
  end.

Definition builtin_names : list string :=
  ["ES256"; "ES256K"; "ES256K-R"; "Ed25519"; "EdDSA"].

Definition inherited_names : list string :=
  ["constructor"; "hasOwnProperty"; "isPrototypeOf"; "propertyIsEnumerable";
   "toLocaleString"; "toString"; "valueOf"; "__defineGetter__"; "__defineSetter__";
   "__lookupGetter__"; "__lookupSetter__"; "__proto__"].

(** Every property of the registry object is a data property holding a
    truthy value, or the inherited [__proto__]; the prototype is
    [Object.prototype]. *)
Definition well_formed (O : Object) : Prop :=
  prototype O = ObjectPrototype
  /\ forall P x, own O !! P = Some x -> exists v, x = Data v /\ ToBoolean v = true.

(** ** Sample inputs *)

(** A structured signature with r = bytes 1..32 and s = bytes 33..64, two
    signers over a world with nothing in it, and a caller's function. *)
Definition sample_r : string := string_of_bytes (N.of_nat <$> seq 1 32).
Definition sample_s : string := string_of_bytes (N.of_nat <$> seq 33 32).

Definition sample_signature (recoveryParam : option Z) : JSValue :=
  JSObject
    (list_to_map
       ([("r", Data (JSString sample_r)); ("s", Data (JSString sample_s))]
        ++ match recoveryParam with
           | Some v => [("recoveryParam", Data (JSNumber v))]
           | None => []
           end)%list)
    ObjectPrototype.

Definition sample_jose : string :=
  "AQIDBAUGBwgJCgsMDQ4PEBESExQVFhcYGRobHB0eHyAhIiMkJSYnKCkqKywtLi8wMTIzNDU2Nzg5Ojs8PT4_QA".

Definition sample_jose_recoverable : string :=
  "AQIDBAUGBwgJCgsMDQ4PEBESExQVFhcYGRobHB0eHyAhIiMkJSYnKCkqKywtLi8wMTIzNDU2Nzg5Ojs8PT4_QAE".

Definition returning (v : JSValue) : @Signer unit := fun _ s => (Ok v, s).
Definition rejecting (e : Thrown) : @Signer unit := fun _ s => (Throw e, s).

Definition caller_function : JSValue := JSFunction (Foreign 0).

(** * Properties *)

Ltac run :=
  unfold SignerAlg, AddSigningAlgorithm, perform, mbind, M_bind, mret, M_ret,
    lift, throw, get_state, put_state in *; simpl in *.

Lemma lookup_chain_obj (O : Object) (P : string) :
  lookup_chain P (obj O) =
    match own O !! P with
    | Some x => Some x
    | None => lookup_chain P (prototype O)
    end.
Proof. reflexivity. Qed.

Lemma Get_truthy_HasProperty (O : JSValue) (P : string) :
  ToBoolean (Get O P) = true -> HasProperty O P = true.
Proof.
  unfold Get, HasProperty. destruct (lookup_chain P O); [reflexivity | discriminate].
Qed.

Lemma function_truthy (v : JSValue) : typeof v = "function" -> ToBoolean v = true.
Proof. destruct v; simpl; congruence. Qed.

Lemma SignerAlg_state (alg : string) (O : Object) : snd (SignerAlg alg O) = O.
Proof. run. destruct (ToBoolean _); reflexivity. Qed.

Lemma SignerAlg_Ok (alg : string) (O O' : Object) (v : JSValue) :
  SignerAlg alg O = (Ok v, O') <-> Get (obj O) alg = v /\ ToBoolean v = true /\ O' = O.
Proof.
  run. destruct (ToBoolean (Get (obj O) alg)) eqn:E; simpl; split.
  - intros [= <- <-]. auto.
  - intros (<- & _ & ->). reflexivity.
  - discriminate.
  - intros (<- & H & _). congruence.
Qed.

Lemma OrdinarySet_absent (O : Object) (P : string) (V : JSValue) :
  HasProperty (obj O) P = false ->
  OrdinarySet O P V = {| own := <[P := Data V]> (own O); prototype := prototype O |}.
Proof.
  unfold HasProperty, OrdinarySet. destruct (lookup_chain P (obj O)); [discriminate | reflexivity].
Qed.

Lemma AddSigningAlgorithm_Throw (alg impl : JSValue) (O O' : Object) (e : Thrown) :
  AddSigningAlgorithm alg impl O = (Throw e, O') -> O' = O.
Proof.
  destruct alg; run; try congruence.
  repeat (match goal with |- context [if ?b then _ else _] => destruct b end; simpl);
    congruence.
Qed.

Lemma AddSigningAlgorithm_Ok (alg impl : JSValue) (O O' : Object) :
  AddSigningAlgorithm alg impl O = (Ok tt, O') ->
  exists name, alg = JSString name /\ name <> "" /\ typeof impl = "function" /\
    HasProperty (obj O) name = false /\
    O' = {| own := <[name := Data impl]> (own O); prototype := prototype O |}.
Proof.
  destruct alg; run; try discriminate.
  destruct (String.eqb s "") eqn:Es; simpl; [discriminate |].
  destruct (ToBoolean impl) eqn:Et; simpl; [| discriminate].
  destruct (String.eqb (typeof impl) "function") eqn:Ef; simpl; [| discriminate].
  destruct (HasProperty (obj O) s) eqn:Eh; simpl; [discriminate |].
  intros [= <-]. exists s. repeat split; auto.
  - intros ->. discriminate.
  - apply String.eqb_eq. exact Ef.
  - apply OrdinarySet_absent. exact Eh.
Qed.

(** ** The registry *)

(** The state of the registry as the two operations see it: assigning a
    name that is not in the object adds it and touches nothing else. *)
Lemma lookup_chain_insert_ne (O : Object) (name P : string) (V : JSValue) :
  name <> P ->
  lookup_chain P (obj {| own := <[name := Data V]> (own O); prototype := prototype O |})
  = lookup_chain P (obj O).
Proof.
  intros Hne. rewrite !lookup_chain_obj. simpl. rewrite lookup_insert_ne; done.
Qed.

Lemma Get_insert_eq (O : Object) (name : string) (V : JSValue) :
  Get (obj {| own := <[name := Data V]> (own O); prototype := prototype O |}) name = V.
Proof.
  unfold Get. rewrite lookup_chain_obj. simpl. rewrite lookup_insert_eq. reflexivity.
Qed.

Lemma Get_insert_ne (O : Object) (name P : string) (V : JSValue) :
  name <> P ->
  Get (obj {| own := <[name := Data V]> (own O); prototype := prototype O |}) P
  = Get (obj O) P.
Proof.
  intros Hne. unfold Get. rewrite lookup_chain_insert_ne by done. reflexivity.
Qed.

(** One call: the prototype stays, own properties are only added, and
    whatever resolved before resolves to the same value after. *)
Lemma perform_grows (c : Call) (O : Object) :
  let O' := snd (perform c O) in
  prototype O' = prototype O /\ own O ⊆ own O' /\
  (forall P, HasProperty (obj O) P = true -> lookup_chain P (obj O') = lookup_chain P (obj O)).
Proof.
  destruct c as [alg | alg impl]; cbn zeta.
  - unfold perform. rewrite SignerAlg_state. auto.
  - assert (snd (perform (CallAddSigningAlgorithm alg impl) O)
            = snd (AddSigningAlgorithm alg impl O)) as ->.
    { unfold perform, mbind, M_bind. destruct (AddSigningAlgorithm alg impl O) as [[[] | e] O1]; reflexivity. }
    destruct (AddSigningAlgorithm alg impl O) as [[[] | e] O1] eqn:E; simpl.
    + apply AddSigningAlgorithm_Ok in E as (name & -> & _ & _ & Habs & ->). simpl.
      split; [reflexivity |]. split.
      * apply insert_subseteq. unfold HasProperty in Habs. rewrite lookup_chain_obj in Habs.
        destruct (own O !! name); [discriminate | reflexivity].
      * intros P HP. apply lookup_chain_insert_ne. intros ->. congruence.
    + apply AddSigningAlgorithm_Throw in E as ->. auto.
Qed.

Lemma after_cons (c : Call) (calls : list Call) (O : Object) :
  after (c :: calls) O = after calls (snd (perform c O)).
Proof. reflexivity. Qed.

Lemma after_grows (calls : list Call) (O : Object) :
  let O' := after calls O in
  prototype O' = prototype O /\ own O ⊆ own O' /\
  (forall P, HasProperty (obj O) P = true -> lookup_chain P (obj O') = lookup_chain P (obj O)).
Proof.
  revert O. induction calls as [| c calls IH]; intros O; cbn zeta.
  - simpl. auto.
  - rewrite after_cons.
    destruct (perform_grows c O) as (Hp1 & Hs1 & Hl1).
    destruct (IH (snd (perform c O))) as (Hp2 & Hs2 & Hl2).
    split; [congruence |]. split; [etrans; eassumption |].
    intros P HP. rewrite Hl2.
    + apply Hl1, HP.
    + unfold HasProperty. rewrite Hl1 by exact HP. exact HP.
Qed.

(** C1, at the input where the code departs from it: [SignerAlg] reads
    [algorithms[alg]] through the prototype chain, so the name of a member
    of [Object.prototype] resolves to that member instead of being refused
    as an unsupported algorithm. *)
Theorem SignerAlg_resolves_inherited_name :
  SignerAlg "constructor" algorithms = (Ok (JSFunction (Native "Object")), algorithms).
Proof. reflexivity. Qed.


(** C2, at the input where the code departs from it: the duplicate test
    is [alg in algorithms], which also finds what the object literal
    inherits, so a function offered under the name of a member of
    [Object.prototype] is refused as already existing although the
    registry has no entry of that name: it is no own property of the
    object, and [AddSigningAlgorithm] has not run. *)
Theorem AddSigningAlgorithm_refuses_inherited_name :
  own algorithms !! "toString" = None
  /\ typeof caller_function = "function"
  /\ AddSigningAlgorithm (JSString "toString") caller_function algorithms
     = (Throw (Error "Algorithm 'toString' already exists"), algorithms).
Proof. repeat split. Qed.

(** What a call [AddSigningAlgorithm(alg, impl)] with a string [alg] does,
    guard by guard: an empty [alg] fails with "Invalid algorithm name";
    otherwise an [impl] that is not a function fails with "Invalid
    implementation"; otherwise an [alg] that the [in] operator finds in
    the registry object, own or inherited, fails with "already exists";
    otherwise the call succeeds and [SignerAlg(alg)] then returns [impl]
    itself. A failing call leaves the registry as it was. *)
Theorem AddSigningAlgorithm_outcomes (O : Object) (alg : string) (impl : JSValue) :
  (alg = "" ->
     AddSigningAlgorithm (JSString alg) impl O
     = (Throw (Error "Invalid algorithm name: must be a non-empty string"), O))
  /\ (alg <> "" -> typeof impl <> "function" ->
     AddSigningAlgorithm (JSString alg) impl O
     = (Throw (Error "Invalid implementation: must be a function"), O))
  /\ (alg <> "" -> typeof impl = "function" -> HasProperty (obj O) alg = true ->
     AddSigningAlgorithm (JSString alg) impl O
     = (Throw (Error ("Algorithm '" ++ alg ++ "' already exists")), O))
  /\ (alg <> "" -> typeof impl = "function" -> HasProperty (obj O) alg = false ->
     exists O', AddSigningAlgorithm (JSString alg) impl O = (Ok tt, O')
                /\ SignerAlg alg O' = (Ok impl, O')).
Proof.
  repeat split.
  - intros ->. reflexivity.
  - intros Hne Hty. run.
    apply String.eqb_neq in Hne as ->. apply String.eqb_neq in Hty as ->. simpl.
    rewrite orb_true_r. reflexivity.
  - intros Hne Hty Hin. run.
    apply String.eqb_neq in Hne as ->. rewrite (function_truthy impl Hty).
    apply String.eqb_eq in Hty as ->. simpl. rewrite Hin. reflexivity.
  - intros Hne Hty Hout. run.
    apply String.eqb_neq in Hne as ->. rewrite (function_truthy impl Hty).
    pose proof Hty as Hty'. apply String.eqb_eq in Hty' as ->. simpl. rewrite Hout.
    eexists. split; [reflexivity |].
    rewrite OrdinarySet_absent by exact Hout.
    rewrite Get_insert_eq, (function_truthy impl Hty). reflexivity.
Qed.

(** C3. Over any sequence of [SignerAlg] and [AddSigningAlgorithm] calls
    the registry object keeps its prototype and every own property it had
    (entries are added, never removed or replaced); an identifier that
    resolved to an adapter resolves to that same adapter afterwards; and a
    registration under a key that was in the registry fails and changes
    nothing. *)
Theorem registry_append_only (O : Object) (calls : list Call) :
  let O' := after calls O in
  prototype O' = prototype O
  /\ own O ⊆ own O'
  /\ (forall alg v, SignerAlg alg O = (Ok v, O) -> SignerAlg alg O' = (Ok v, O'))
  /\ (forall alg impl, HasProperty (obj O) alg = true ->
        exists e, AddSigningAlgorithm (JSString alg) impl O' = (Throw e, O')).
Proof.
  cbn zeta. destruct (after_grows calls O) as (Hproto & Hown & Hchain).
  split; [exact Hproto |]. split; [exact Hown |]. split.
  - intros alg v Hv. apply SignerAlg_Ok in Hv as (Hget & Htrue & _).
    apply SignerAlg_Ok. split; [| auto].
    assert (HasProperty (obj O) alg = true) as Hin.
    { apply Get_truthy_HasProperty. congruence. }
    unfold Get in *. rewrite (Hchain alg Hin).
    unfold obj, GetPrototypeOf in *. rewrite Hproto. exact Hget.
  - intros alg impl Hin.
    assert (HasProperty (obj (after calls O)) alg = true) as Hin'.
    { unfold HasProperty in *. rewrite (Hchain alg Hin). exact Hin. }
    destruct (AddSigningAlgorithm (JSString alg) impl (after calls O)) as [[[] | e] O1] eqn:E.
    + apply AddSigningAlgorithm_Ok in E as (name & [= <-] & _ & _ & Hout & _). congruence.
    + exists e. apply AddSigningAlgorithm_Throw in E as Heq. congruence.
Qed.

(** C10. A call of [AddSigningAlgorithm] that fails, whatever the reason,
    leaves the registry exactly as it was; [SignerAlg] never changes it;
    so after a failed call every algorithm that resolved before resolves
    to the same adapter. *)
Theorem failed_call_keeps_registry (O : Object) :
  (forall alg impl e O', AddSigningAlgorithm alg impl O = (Throw e, O') -> O' = O)
  /\ (forall alg, snd (SignerAlg alg O) = O)
  /\ (forall c e O', perform c O = (Throw e, O') ->
        forall alg v, SignerAlg alg O = (Ok v, O) -> SignerAlg alg O' = (Ok v, O')).
Proof.
  split; [| split].
  - intros alg impl e O'. apply AddSigningAlgorithm_Throw.
  - intros alg. apply SignerAlg_state.
  - intros c e O' Hc alg v Hv.
    assert (O' = O) as ->; [| exact Hv].
    destruct c as [a | a impl]; simpl in Hc.
    + pose proof (SignerAlg_state a O) as Hs. rewrite Hc in Hs. exact Hs.
    + unfold mbind, M_bind in Hc.
      destruct (AddSigningAlgorithm a impl O) as [[[] | e1] O1] eqn:E; [discriminate |].
      apply AddSigningAlgorithm_Throw in E. congruence.
Qed.

(** ** The registry as callers can reach it *)

Lemma well_formed_algorithms : well_formed algorithms.
Proof.
  split; [reflexivity |]. intros P x H.
  apply elem_of_list_to_map_2 in H.
  repeat (apply elem_of_cons in H as [[= -> ->] | H]; [eexists; split; reflexivity |]).
  apply elem_of_nil in H as [].
Qed.

Lemma well_formed_perform (c : Call) (O : Object) :
  well_formed O -> well_formed (snd (perform c O)).
Proof.
  intros (Hproto & Hown). destruct c as [alg | alg impl].
  - unfold perform. rewrite SignerAlg_state. split; assumption.
  - assert (snd (perform (CallAddSigningAlgorithm alg impl) O)
            = snd (AddSigningAlgorithm alg impl O)) as ->.
    { unfold perform, mbind, M_bind.
      destruct (AddSigningAlgorithm alg impl O) as [[[] | e] O1]; reflexivity. }
    destruct (AddSigningAlgorithm alg impl O) as [[[] | e] O1] eqn:E; simpl.
    + apply AddSigningAlgorithm_Ok in E as (name & -> & _ & Hty & _ & ->).
      split; [exact Hproto |]. simpl. intros P x H.
      destruct (decide (name = P)) as [<- | Hne].
      * rewrite lookup_insert_eq in H. injection H as <-.
        exists impl. split; [reflexivity | apply function_truthy, Hty].
      * rewrite lookup_insert_ne in H by exact Hne. eapply Hown, H.
    + apply AddSigningAlgorithm_Throw in E as ->. split; assumption.
Qed.

Lemma well_formed_after (calls : list Call) (O : Object) :
  well_formed O -> well_formed (after calls O).
Proof.
  revert O. induction calls as [| c calls IH]; intros O H; [exact H |].
  rewrite after_cons. apply IH, well_formed_perform, H.
Qed.

(** X2. On every registry state a caller can reach, the names
    [AddSigningAlgorithm] finds in the registry are the names [SignerAlg]
    resolves. *)
Lemma present_iff_resolves (calls : list Call) (alg : string) :
  let O := after calls algorithms in
  HasProperty (obj O) alg = true <-> exists v, SignerAlg alg O = (Ok v, O).
Proof.
  cbn zeta. destruct (well_formed_after calls algorithms well_formed_algorithms) as (Hproto & Hown).
  set (O := after calls algorithms) in *. split.
  - intros Hin. exists (Get (obj O) alg). apply SignerAlg_Ok. split; [reflexivity |].
    split; [| reflexivity].
    unfold HasProperty, Get in *. rewrite lookup_chain_obj in *.
    destruct (own O !! alg) as [x |] eqn:Ex.
    + destruct (Hown _ _ Ex) as (v & -> & Hv). exact Hv.
    + rewrite Hproto in *.
      destruct (lookup_chain alg ObjectPrototype) as [[v |] |] eqn:Ep; [| | discriminate].
      * unfold ObjectPrototype, lookup_chain in Ep.
        match type of Ep with match ?m !! _ with _ => _ end = _ =>
          destruct (m !! alg) as [y |] eqn:Ey; [| discriminate]
        end.
        injection Ep as ->. apply elem_of_list_to_map_2 in Ey. rename Ey into Ep.
        repeat (apply elem_of_cons in Ep as [[= _ ->] | Ep]; [reflexivity |]).
        apply elem_of_cons in Ep as [[=] | Ep]. apply elem_of_nil in Ep as [].
      * unfold obj. simpl. rewrite Hproto. reflexivity.
  - intros (v & Hv). apply SignerAlg_Ok in Hv as (Hget & Htrue & _).
    apply Get_truthy_HasProperty. congruence.
Qed.

(** ** The adapters *)

(** The classification of a signer result, case by case. *)
Lemma instanceOfEcdsaSignature_object (props : gmap string Property) (proto : JSValue) :
  instanceOfEcdsaSignature (JSObject props proto)
  = Ok (HasProperty (JSObject props proto) "r" && HasProperty (JSObject props proto) "s").
Proof.
  unfold instanceOfEcdsaSignature. simpl.
  destruct (HasProperty (JSObject props proto) "r"); reflexivity.
Qed.

Lemma instanceOfEcdsaSignature_null : instanceOfEcdsaSignature JSNull = Throw TypeError.
Proof. reflexivity. Qed.

Lemma instanceOfEcdsaSignature_string (text : string) :
  instanceOfEcdsaSignature (JSString text) = Ok false.
Proof. reflexivity. Qed.

Lemma instanceOfEcdsaSignature_true (v : JSValue) :
  instanceOfEcdsaSignature v = Ok true <->
  is_object v = true /\ HasProperty v "r" = true /\ HasProperty v "s" = true.
Proof.
  destruct v; try (split; [discriminate | intros (? & _); discriminate]).
  rewrite instanceOfEcdsaSignature_object. simpl. split.
  - intros [= H]. apply andb_true_iff in H. tauto.
  - intros (_ & -> & ->). reflexivity.
Qed.

Section AdapterProperties.

Context {S : Type}.
Variable toJose : JSValue -> option bool -> Result string.
Variable fromJose : JSValue -> Result JSValue.

Implicit Types (payload : string) (signer : @Signer S) (s : S) (v : JSValue).

(** What each closure does once the signer has answered or failed. *)
Lemma sign_signer_Throw (c : Code) payload signer s s' (e : Thrown) :
  signer payload s = (Throw e, s') ->
  sign toJose fromJose c payload signer s = (Throw e, s').
Proof.
  intros H. destruct c; simpl;
    unfold ES256SignerAlg_sign, ES256KSignerAlg_sign, Ed25519SignerAlg_sign, mbind, M_bind;
    rewrite H; reflexivity.
Qed.

Lemma ES256SignerAlg_sign_Ok payload signer s s' v :
  signer payload s = (Ok v, s') ->
  ES256SignerAlg_sign toJose payload signer s
  = (match instanceOfEcdsaSignature v with
     | Ok true => JSString <$> toJose v None
     | Ok false => Ok v
     | Throw e => Throw e
     end, s').
Proof.
  intros H. unfold ES256SignerAlg_sign, mbind, M_bind, lift, mret, M_ret. rewrite H.
  destruct (instanceOfEcdsaSignature v) as [[] | e]; reflexivity.
Qed.

Lemma ES256KSignerAlg_sign_Ok (recoverable : option bool) payload signer s s' v :
  signer payload s = (Ok v, s') ->
  ES256KSignerAlg_sign toJose fromJose recoverable payload signer s
  = (match instanceOfEcdsaSignature v with
     | Ok true => JSString <$> toJose v recoverable
     | Ok false =>
         if default false recoverable then
           jose ← fromJose v;
           param ← GetV jose "recoveryParam";
           if String.eqb (typeof param) "undefined" then
             Throw (Error "not_supported: ES256K-R not supported when signer doesn't provide a recovery param")
           else Ok v
         else Ok v
     | Throw e => Throw e
     end, s').
Proof.
  intros H. unfold ES256KSignerAlg_sign, mbind, M_bind, Result_bind, lift, mret, M_ret, throw.
  rewrite H. destruct (instanceOfEcdsaSignature v) as [[] | e]; simpl; try reflexivity.
  destruct (default false recoverable); [| reflexivity].
  destruct (fromJose v) as [jose | e]; [| reflexivity].
  destruct (GetV jose "recoveryParam") as [param | e]; [| reflexivity].
  destruct (String.eqb (typeof param) "undefined"); reflexivity.
Qed.

Lemma Ed25519SignerAlg_sign_Ok payload signer s s' v :
  signer payload s = (Ok v, s') ->
  Ed25519SignerAlg_sign payload signer s
  = (match instanceOfEcdsaSignature v with
     | Ok true =>
         Throw (Error "invalid_config: expected a signer function that returns a string instead of signature object")
     | Ok false => Ok v
     | Throw e => Throw e
     end, s').
Proof.
  intros H. unfold Ed25519SignerAlg_sign, mbind, M_bind, lift, mret, M_ret, throw. rewrite H.
  destruct (instanceOfEcdsaSignature v) as [[] | e]; reflexivity.
Qed.

(** The closures the registry holds when the module has just been loaded. *)
Lemma builtin_adapter_ES256 :
  builtin_adapter toJose fromJose "ES256" = Some (@ES256SignerAlg_sign S toJose).
Proof. reflexivity. Qed.

Lemma builtin_adapter_ES256K :
  builtin_adapter toJose fromJose "ES256K" = Some (@ES256KSignerAlg_sign S toJose fromJose None).
Proof. reflexivity. Qed.

Lemma builtin_adapter_ES256K_R :
  builtin_adapter toJose fromJose "ES256K-R"
  = Some (@ES256KSignerAlg_sign S toJose fromJose (Some true)).
Proof. reflexivity. Qed.

Lemma builtin_adapter_Ed25519 :
  builtin_adapter toJose fromJose "Ed25519" = Some (@Ed25519SignerAlg_sign S).
Proof. reflexivity. Qed.

Lemma builtin_adapter_EdDSA :
  builtin_adapter toJose fromJose "EdDSA" = Some (@Ed25519SignerAlg_sign S).
Proof. reflexivity. Qed.

Lemma builtin_adapter_code (alg : string) :
  alg ∈ builtin_names ->
  exists c, builtin_adapter toJose fromJose alg = Some (@sign S toJose fromJose c).
Proof.
  intros H. unfold builtin_names in H.
  repeat (apply elem_of_cons in H as [-> | H]; [eexists; reflexivity |]).
  apply elem_of_nil in H as [].
Qed.

(** C4. The entries ['Ed25519'] and ['EdDSA'] both resolve, and the two
    adapters give the same result (the same returned value or the same
    failure, and the same effect on the signer) for every payload and
    every signer. *)
Theorem Ed25519_EdDSA_same_adapter :
  exists a b : @SignerAlgorithm S,
    builtin_adapter toJose fromJose "Ed25519" = Some a
    /\ builtin_adapter toJose fromJose "EdDSA" = Some b
    /\ forall payload signer s, a payload signer s = b payload signer s.
Proof.
  exists Ed25519SignerAlg_sign, Ed25519SignerAlg_sign.
  split; [apply builtin_adapter_Ed25519 |]. split; [apply builtin_adapter_EdDSA |].
  reflexivity.
Qed.

(** C5. The adapters registered as ['ES256'] and ['ES256K']: when the
    signer returns a structured signature the adapter returns what
    [toJose] makes of it with no recoverable flag (a string, or [toJose]'s
    own failure); when the signer returns a string the adapter returns
    that string unchanged. *)
Theorem ES256_ES256K_adapters (alg : string) :
  alg ∈ ["ES256"; "ES256K"] ->
  exists adapter : @SignerAlgorithm S,
    builtin_adapter toJose fromJose alg = Some adapter
    /\ forall payload signer s s' v,
         signer payload s = (Ok v, s') ->
         (instanceOfEcdsaSignature v = Ok true ->
            adapter payload signer s = (JSString <$> toJose v None, s'))
         /\ (forall text, v = JSString text ->
               adapter payload signer s = (Ok (JSString text), s')).
Proof.
  intros H. apply elem_of_cons in H as [-> | H]; [| apply list_elem_of_singleton in H as ->].
  - eexists. split; [apply builtin_adapter_ES256 |].
    intros payload signer s s' v Hs. rewrite (ES256SignerAlg_sign_Ok _ _ _ _ _ Hs). split.
    + intros ->. reflexivity.
    + intros text ->. reflexivity.
  - eexists. split; [apply builtin_adapter_ES256K |].
    intros payload signer s s' v Hs. rewrite (ES256KSignerAlg_sign_Ok _ _ _ _ _ _ Hs). split.
    + intros ->. reflexivity.
    + intros text ->. reflexivity.
Qed.

(** C6. The adapter registered as ['ES256K-R']: when the signer returns a
    string that [fromJose] decodes to a signature without a recovery
    param, the adapter fails with "not_supported: ES256K-R not supported
    when signer doesn't provide a recovery param"; when the signer
    returns a structured signature, the adapter returns what [toJose]
    makes of it with the recoverable flag set, which is the encoding that
    carries the recovery byte. *)
Theorem ES256K_R_adapter :
  exists adapter : @SignerAlgorithm S,
    builtin_adapter toJose fromJose "ES256K-R" = Some adapter
    /\ forall payload signer s s' v,
         signer payload s = (Ok v, s') ->
         (forall text jose,
            v = JSString text -> fromJose v = Ok jose ->
            GetV jose "recoveryParam" = Ok JSUndefined ->
            adapter payload signer s
            = (Throw (Error "not_supported: ES256K-R not supported when signer doesn't provide a recovery param"), s'))
         /\ (instanceOfEcdsaSignature v = Ok true ->
               adapter payload signer s = (JSString <$> toJose v (Some true), s')).
Proof.
  eexists. split; [apply builtin_adapter_ES256K_R |].
  intros payload signer s s' v Hs. rewrite (ES256KSignerAlg_sign_Ok _ _ _ _ _ _ Hs). split.
  - intros text jose -> Hjose Hparam. simpl. rewrite Hjose. simpl. rewrite Hparam. reflexivity.
  - intros ->. reflexivity.
Qed.

(** C7. The adapter registered as ['EdDSA'] and as ['Ed25519']: a string
    from the signer is returned unchanged; a structured signature makes
    the adapter fail with "invalid_config: expected a signer function that
    returns a string instead of signature object". *)
Theorem EdDSA_adapter (alg : string) :
  alg ∈ ["EdDSA"; "Ed25519"] ->
  exists adapter : @SignerAlgorithm S,
    builtin_adapter toJose fromJose alg = Some adapter
    /\ forall payload signer s s' v,
         signer payload s = (Ok v, s') ->
         (forall text, v = JSString text ->
            adapter payload signer s = (Ok (JSString text), s'))
         /\ (instanceOfEcdsaSignature v = Ok true ->
               adapter payload signer s
               = (Throw (Error "invalid_config: expected a signer function that returns a string instead of signature object"), s')).
Proof.
  intros H.
  assert (builtin_adapter toJose fromJose alg = Some (@Ed25519SignerAlg_sign S)) as Ha.
  { apply elem_of_cons in H as [-> | H]; [| apply list_elem_of_singleton in H as ->];
      reflexivity. }
  eexists. split; [exact Ha |].
  intros payload signer s s' v Hs. rewrite (Ed25519SignerAlg_sign_Ok _ _ _ _ _ Hs). split.
  - intros text ->. reflexivity.
  - intros ->. reflexivity.
Qed.

(** C9. A signer result is classified as a structured signature exactly
    when it is an object that has a property ['r'] and a property ['s'],
    own or inherited; so the adapters registered as ['ES256'] and
    ['ES256K'] return an object that lacks ['r'] or ['s'] as it is, the
    way they return a string. *)
Theorem instanceOfEcdsaSignature_classifies :
  (forall v,
     instanceOfEcdsaSignature v = Ok true <->
     is_object v = true /\ HasProperty v "r" = true /\ HasProperty v "s" = true)
  /\ (forall alg, alg ∈ ["ES256"; "ES256K"] ->
      exists adapter : @SignerAlgorithm S,
        builtin_adapter toJose fromJose alg = Some adapter
        /\ forall payload signer s s' v,
             signer payload s = (Ok v, s') ->
             is_object v = true ->
             HasProperty v "r" = false \/ HasProperty v "s" = false ->
             adapter payload signer s = (Ok v, s')).
Proof.
  split; [exact instanceOfEcdsaSignature_true |].
  intros alg H.
  assert (forall v, is_object v = true ->
            HasProperty v "r" = false \/ HasProperty v "s" = false ->
            instanceOfEcdsaSignature v = Ok false) as Hclass.
  { intros v Hobj Hmiss. destruct v; try discriminate.
    rewrite instanceOfEcdsaSignature_object.
    destruct Hmiss as [-> | ->]; [reflexivity | rewrite andb_false_r; reflexivity]. }
  apply elem_of_cons in H as [-> | H]; [| apply list_elem_of_singleton in H as ->].
  - eexists. split; [apply builtin_adapter_ES256 |].
    intros payload signer s s' v Hs Hobj Hmiss.
    rewrite (ES256SignerAlg_sign_Ok _ _ _ _ _ Hs), (Hclass v Hobj Hmiss). reflexivity.
  - eexists. split; [apply builtin_adapter_ES256K |].
    intros payload signer s s' v Hs Hobj Hmiss.
    rewrite (ES256KSignerAlg_sign_Ok _ _ _ _ _ _ Hs), (Hclass v Hobj Hmiss). reflexivity.
Qed.

End AdapterProperties.

Section SignerCalls.

Context {S : Type}.
Variable toJose : JSValue -> option bool -> Result string.
Variable fromJose : JSValue -> Result JSValue.

(** Every closure of the module, run on a signer that logs its
    invocations: one entry is added to the log, the signer's world is the
    one a single invocation leaves, and a failure of the signer is the
    failure of the closure. *)
Lemma sign_calls_signer_once (c : Code) (payload : string) (signer : @Signer S)
    (s : S) (log : list string) :
  exists result,
    sign toJose fromJose c payload (logged signer) (s, log)
    = (result, (snd (signer payload s), (log ++ [payload])%list))
    /\ forall e, fst (signer payload s) = Throw e -> result = Throw e.
Proof.
  destruct (signer payload s) as [[v | e] s'] eqn:Hs.
  - assert (logged signer payload (s, log) = (Ok v, (s', (log ++ [payload])%list))) as Hl.
    { unfold logged. rewrite Hs. reflexivity. }
    destruct c as [| recoverable |]; simpl sign.
    + rewrite (ES256SignerAlg_sign_Ok _ _ _ _ _ _ Hl). eexists. split; [reflexivity | discriminate].
    + rewrite (ES256KSignerAlg_sign_Ok _ _ _ _ _ _ _ _ Hl).
      eexists. split; [reflexivity | discriminate].
    + rewrite (Ed25519SignerAlg_sign_Ok _ _ _ _ _ Hl). eexists. split; [reflexivity | discriminate].
  - assert (logged signer payload (s, log) = (Throw e, (s', (log ++ [payload])%list))) as Hl.
    { unfold logged. rewrite Hs. reflexivity. }
    rewrite (sign_signer_Throw _ _ _ _ _ _ _ _ Hl). exists (Throw e). split; [reflexivity |].
    simpl. intros e' [= ->]. reflexivity.
Qed.

(** C8. Each of the five built-in adapters invokes the signer exactly
    once, on the payload it was given, and when the signer fails the
    adapter fails with that very failure and returns nothing. *)
Theorem builtin_adapters_call_signer_once (alg : string) :
  alg ∈ builtin_names ->
  exists adapter : @SignerAlgorithm (S * list string),
    builtin_adapter toJose fromJose alg = Some adapter
    /\ forall payload (signer : @Signer S) s log,
       exists result,
         adapter payload (logged signer) (s, log)
         = (result, (snd (signer payload s), (log ++ [payload])%list))
         /\ forall e, fst (signer payload s) = Throw e -> result = Throw e.
Proof.
  intros H. destruct (builtin_adapter_code (S := S * list string) toJose fromJose alg H) as (c & Hc).
  exists (sign toJose fromJose c). split; [exact Hc |].
  intros payload signer s log. apply sign_calls_signer_once.
Qed.

End SignerCalls.

(** The two entries C4 is about are two function objects, created by two
    calls of the factory, with the same code. *)
Remark Ed25519_EdDSA_distinct_objects :
  fst (SignerAlg "Ed25519" algorithms) = Ok (JSFunction (Closure 3 Ed25519_sign))
  /\ fst (SignerAlg "EdDSA" algorithms) = Ok (JSFunction (Closure 4 Ed25519_sign)).
Proof. split; reflexivity. Qed.

(** ** The model of the JOSE utilities on the sample signature *)

Example toJose_model_sample :
  toJose_model (sample_signature None) None = Ok sample_jose
  /\ toJose_model (sample_signature (Some 1%Z)) None = Ok sample_jose
  /\ toJose_model (sample_signature (Some 1%Z)) (Some true) = Ok sample_jose_recoverable.
Proof. repeat split. Qed.

Example fromJose_model_sample :
  fromJose_model (JSString sample_jose) = Ok (sample_signature None)
  /\ fromJose_model (JSString sample_jose_recoverable) = Ok (sample_signature (Some 1%Z)).
Proof. split; vm_compute; reflexivity. Qed.

(** * Instances

    Each statement above that has a premise, applied to a concrete call. *)

Lemma AddSigningAlgorithm_outcomes_witness :
  AddSigningAlgorithm (JSString "") caller_function algorithms
  = (Throw (Error "Invalid algorithm name: must be a non-empty string"), algorithms)
  /\ AddSigningAlgorithm (JSString "PS256") (JSString "not a function") algorithms
     = (Throw (Error "Invalid implementation: must be a function"), algorithms)
  /\ AddSigningAlgorithm (JSString "ES256") caller_function algorithms
     = (Throw (Error "Algorithm 'ES256' already exists"), algorithms)
  /\ exists O', AddSigningAlgorithm (JSString "PS256") caller_function algorithms = (Ok tt, O')
                /\ SignerAlg "PS256" O' = (Ok caller_function, O').
Proof.
  split; [| split; [| split]].
  - apply (AddSigningAlgorithm_outcomes algorithms "" caller_function). reflexivity.
  - apply (AddSigningAlgorithm_outcomes algorithms "PS256" (JSString "not a function"));
      discriminate.
  - apply (AddSigningAlgorithm_outcomes algorithms "ES256" caller_function);
      [discriminate | reflexivity | reflexivity].
  - apply (AddSigningAlgorithm_outcomes algorithms "PS256" caller_function);
      [discriminate | reflexivity | reflexivity].
Defined.

Lemma registry_append_only_witness :
  let calls := [CallAddSigningAlgorithm (JSString "PS256") caller_function;
                CallSignerAlg "RS256";
                CallAddSigningAlgorithm (JSString "ES256") caller_function] in
  SignerAlg "ES256" (after calls algorithms)
  = (Ok (JSFunction (Closure 0 ES256_sign)), after calls algorithms)
  /\ exists e, AddSigningAlgorithm (JSString "ES256") caller_function (after calls algorithms)
               = (Throw e, after calls algorithms).
Proof.
  intros calls.
  destruct (registry_append_only algorithms calls) as (_ & _ & Hresolve & Hfail).
  split.
  - apply Hresolve. reflexivity.
  - apply Hfail. reflexivity.
Defined.

Lemma failed_call_keeps_registry_witness :
  perform (CallAddSigningAlgorithm (JSString "EdDSA") caller_function) algorithms
  = (Throw (Error "Algorithm 'EdDSA' already exists"), algorithms)
  /\ SignerAlg "EdDSA" algorithms = (Ok (JSFunction (Closure 4 Ed25519_sign)), algorithms).
Proof.
  split; [reflexivity |].
  destruct (failed_call_keeps_registry algorithms) as (_ & _ & H).
  apply (H (CallAddSigningAlgorithm (JSString "EdDSA") caller_function)
           (Error "Algorithm 'EdDSA' already exists") algorithms); reflexivity.
Defined.

Lemma ES256_ES256K_adapters_witness :
  exists adapter,
    builtin_adapter toJose_model fromJose_model "ES256" = Some adapter
    /\ adapter "header.payload" (returning (sample_signature None)) tt
       = (Ok (JSString sample_jose), tt)
    /\ adapter "header.payload" (returning (JSString sample_jose)) tt
       = (Ok (JSString sample_jose), tt).
Proof.
  destruct (ES256_ES256K_adapters (S := unit) toJose_model fromJose_model "ES256")
    as (adapter & Ha & Hrun).
  { apply elem_of_cons. left. reflexivity. }
  exists adapter. split; [exact Ha |]. split.
  - destruct (Hrun "header.payload" (returning (sample_signature None)) tt tt
                (sample_signature None) eq_refl) as [H _].
    rewrite H by reflexivity. reflexivity.
  - destruct (Hrun "header.payload" (returning (JSString sample_jose)) tt tt
                (JSString sample_jose) eq_refl) as [_ H].
    apply H. reflexivity.
Defined.

Lemma ES256K_R_adapter_witness :
  exists adapter,
    builtin_adapter toJose_model fromJose_model "ES256K-R" = Some adapter
    /\ adapter "header.payload" (returning (JSString sample_jose)) tt
       = (Throw (Error "not_supported: ES256K-R not supported when signer doesn't provide a recovery param"), tt)
    /\ adapter "header.payload" (returning (sample_signature (Some 1%Z))) tt
       = (Ok (JSString sample_jose_recoverable), tt).
Proof.
  destruct (ES256K_R_adapter (S := unit) toJose_model fromJose_model) as (adapter & Ha & Hrun).
  exists adapter. split; [exact Ha |]. split.
  - destruct (Hrun "header.payload" (returning (JSString sample_jose)) tt tt
                (JSString sample_jose) eq_refl) as [H _].
    destruct (fromJose_model (JSString sample_jose)) as [jose | e] eqn:Hjose;
      [| discriminate Hjose].
    apply (H sample_jose jose); [reflexivity | reflexivity |].
    injection Hjose as <-. reflexivity.
  - destruct (Hrun "header.payload" (returning (sample_signature (Some 1%Z))) tt tt
                (sample_signature (Some 1%Z)) eq_refl) as [_ H].
    rewrite H by reflexivity. reflexivity.
Defined.

Lemma EdDSA_adapter_witness :
  exists adapter,
    builtin_adapter toJose_model fromJose_model "EdDSA" = Some adapter
    /\ adapter "header.payload" (returning (JSString sample_jose)) tt
       = (Ok (JSString sample_jose), tt)
    /\ adapter "header.payload" (returning (sample_signature None)) tt
       = (Throw (Error "invalid_config: expected a signer function that returns a string instead of signature object"), tt).
Proof.
  destruct (EdDSA_adapter (S := unit) toJose_model fromJose_model "EdDSA")
    as (adapter & Ha & Hrun).
  { apply elem_of_cons. left. reflexivity. }
  exists adapter. split; [exact Ha |]. split.
  - destruct (Hrun "header.payload" (returning (JSString sample_jose)) tt tt
                (JSString sample_jose) eq_refl) as [H _].
    apply H. reflexivity.
  - destruct (Hrun "header.payload" (returning (sample_signature None)) tt tt
                (sample_signature None) eq_refl) as [_ H].
    apply H. reflexivity.
Defined.

Lemma builtin_adapters_call_signer_once_witness :
  exists adapter,
    builtin_adapter toJose_model fromJose_model "ES256K-R" = Some adapter
    /\ adapter "header.payload" (logged (rejecting (Rejection (JSString "HSM offline")))) (tt, [])
       = (Throw (Rejection (JSString "HSM offline")), (tt, ["header.payload"])).
Proof.
  destruct (builtin_adapters_call_signer_once (S := unit) toJose_model fromJose_model "ES256K-R")
    as (adapter & Ha & Hrun).
  { unfold builtin_names. do 2 apply list_elem_of_further. apply list_elem_of_here. }
  exists adapter. split; [exact Ha |].
  destruct (Hrun "header.payload" (rejecting (Rejection (JSString "HSM offline"))) tt [])
    as (result & Heq & Hfail).
  rewrite Heq, (Hfail (Rejection (JSString "HSM offline")) eq_refl). reflexivity.
Defined.

Lemma instanceOfEcdsaSignature_classifies_witness :
  let half := JSObject {[ "r" := Data (JSString sample_r) ]} ObjectPrototype in
  instanceOfEcdsaSignature (sample_signature None) = Ok true
  /\ exists adapter,
       builtin_adapter toJose_model fromJose_model "ES256K" = Some adapter
       /\ adapter "header.payload" (returning half) tt = (Ok half, tt).
Proof.
  intros half.
  destruct (instanceOfEcdsaSignature_classifies (S := unit) toJose_model fromJose_model)
    as (Hclass & Hpass).
  split.
  - apply Hclass. repeat split.
  - destruct (Hpass "ES256K") as (adapter & Ha & Hrun).
    { apply list_elem_of_further, list_elem_of_here. }
    exists adapter. split; [exact Ha |].
    apply (Hrun "header.payload" (returning half) tt tt half);
      [reflexivity | reflexivity | right; reflexivity].
Defined.

(** * Further properties of the registry *)

Lemma perform_AddSigningAlgorithm_state (alg impl : JSValue) (O : Object) :
  snd (perform (CallAddSigningAlgorithm alg impl) O) = snd (AddSigningAlgorithm alg impl O).
Proof.
  unfold perform, mbind, M_bind.
  destruct (AddSigningAlgorithm alg impl O) as [[[] | e] O1]; reflexivity.
Qed.

Lemma after_app (l1 l2 : list Call) (O : Object) :
  after (l1 ++ l2)%list O = after l2 (after l1 O).
Proof. unfold after. apply foldl_app. Qed.

(** The state a registration leaves, read off its outcome. *)
Lemma AddSigningAlgorithm_state (alg impl : JSValue) (O : Object) :
  snd (AddSigningAlgorithm alg impl O)
  = match fst (AddSigningAlgorithm alg impl O), alg with
    | Ok _, JSString name =>
        {| own := <[name := Data impl]> (own O); prototype := prototype O |}
    | _, _ => O
    end.
Proof.
  destruct (AddSigningAlgorithm alg impl O) as [[[] | e] O1] eqn:E; simpl.
  - apply AddSigningAlgorithm_Ok in E as (name & -> & _ & _ & _ & ->). reflexivity.
  - apply AddSigningAlgorithm_Throw in E as ->. reflexivity.
Qed.

(** The outcome of a registration depends on the registry only through
    the presence of the name. *)
Lemma AddSigningAlgorithm_outcome_congr (alg impl : JSValue) (O1 O2 : Object) :
  (forall name, alg = JSString name ->
     HasProperty (obj O1) name = HasProperty (obj O2) name) ->
  fst (AddSigningAlgorithm alg impl O1) = fst (AddSigningAlgorithm alg impl O2).
Proof.
  intros H. destruct alg as [| | | | name | |]; try reflexivity.
  pose proof (H name eq_refl) as Hp. unfold AddSigningAlgorithm, mbind, M_bind, get_state, lift.
  destruct (negb (ToBoolean (JSString name)) || negb (String.eqb (typeof (JSString name)) "string"));
    [reflexivity |].
  destruct (negb (ToBoolean impl) || negb (String.eqb (typeof impl) "function"));
    [reflexivity |].
  unfold in_operator, obj in *. rewrite Hp.
  destruct (HasProperty (JSObject (own O2) (prototype O2)) name); reflexivity.
Qed.

Lemma AddSigningAlgorithm_present (name : string) (impl : JSValue) (O : Object) :
  name <> "" -> typeof impl = "function" -> HasProperty (obj O) name = true ->
  AddSigningAlgorithm (JSString name) impl O
  = (Throw (Error ("Algorithm '" ++ name ++ "' already exists")), O).
Proof.
  intros Hne Hty Hin. run.
  apply String.eqb_neq in Hne as ->. rewrite (function_truthy impl Hty).
  apply String.eqb_eq in Hty as ->. simpl. rewrite Hin. reflexivity.
Qed.

Lemma AddSigningAlgorithm_absent (name : string) (impl : JSValue) (O : Object) :
  name <> "" -> typeof impl = "function" -> HasProperty (obj O) name = false ->
  AddSigningAlgorithm (JSString name) impl O
  = (Ok tt, {| own := <[name := Data impl]> (own O); prototype := prototype O |}).
Proof.
  intros Hne Hty Hout. run.
  apply String.eqb_neq in Hne as ->. rewrite (function_truthy impl Hty).
  apply String.eqb_eq in Hty as ->. simpl. rewrite Hout.
  rewrite OrdinarySet_absent by exact Hout. reflexivity.
Qed.

Lemma HasProperty_insert_eq (O : Object) (name : string) (V : JSValue) :
  HasProperty (obj {| own := <[name := Data V]> (own O); prototype := prototype O |}) name = true.
Proof.
  unfold HasProperty. rewrite lookup_chain_obj. simpl. rewrite lookup_insert_eq. reflexivity.
Qed.

Lemma HasProperty_insert_ne (O : Object) (name P : string) (V : JSValue) :
  name <> P ->
  HasProperty (obj {| own := <[name := Data V]> (own O); prototype := prototype O |}) P
  = HasProperty (obj O) P.
Proof.
  intros Hne. unfold HasProperty. rewrite lookup_chain_insert_ne by exact Hne. reflexivity.
Qed.

(** Presence is kept by every call. *)
Lemma HasProperty_after (calls : list Call) (O : Object) (P : string) :
  HasProperty (obj O) P = true -> HasProperty (obj (after calls O)) P = true.
Proof.
  intros H. destruct (after_grows calls O) as (_ & _ & Hchain).
  unfold HasProperty in *. rewrite (Hchain P H). exact H.
Qed.

(** Where an own property of the registry comes from. *)
Lemma own_after_provenance (calls : list Call) (O : Object) (name : string) (x : Property) :
  own (after calls O) !! name = Some x ->
  own O !! name = Some x
  \/ exists impl, x = Data impl /\ name <> "" /\ typeof impl = "function"
                  /\ CallAddSigningAlgorithm (JSString name) impl ∈ calls.
Proof.
  revert O. induction calls as [| c calls IH]; intros O H; [left; exact H |].
  rewrite after_cons in H. destruct (IH _ H) as [Hown | (impl & -> & Hne & Hty & Hin)].
  - destruct c as [alg | alg impl].
    + unfold perform in Hown. rewrite SignerAlg_state in Hown. left. exact Hown.
    + rewrite perform_AddSigningAlgorithm_state in Hown.
      destruct (AddSigningAlgorithm alg impl O) as [[[] | e] O1] eqn:E; simpl in Hown.
      * apply AddSigningAlgorithm_Ok in E as (n & -> & Hne & Hty & _ & ->). simpl in Hown.
        destruct (decide (n = name)) as [-> | Hdiff].
        -- rewrite lookup_insert_eq in Hown. injection Hown as <-.
           right. exists impl. repeat split; auto. apply list_elem_of_here.
        -- rewrite lookup_insert_ne in Hown by exact Hdiff. left. exact Hown.
      * apply AddSigningAlgorithm_Throw in E as ->. left. exact Hown.
  - right. exists impl. repeat split; auto. apply list_elem_of_further, Hin.
Qed.

(** A well-formed call leaves its name in the registry, whether it
    succeeded or found the name there. *)
Lemma HasProperty_after_registration (calls : list Call) (O : Object)
    (name : string) (impl : JSValue) :
  name <> "" -> typeof impl = "function" ->
  CallAddSigningAlgorithm (JSString name) impl ∈ calls ->
  HasProperty (obj (after calls O)) name = true.
Proof.
  intros Hne Hty Hin. apply list_elem_of_split in Hin as (l1 & l2 & ->).
  rewrite after_app, after_cons. apply HasProperty_after.
  rewrite perform_AddSigningAlgorithm_state.
  destruct (HasProperty (obj (after l1 O)) name) eqn:Hp.
  - rewrite (AddSigningAlgorithm_present name impl _ Hne Hty Hp). exact Hp.
  - rewrite (AddSigningAlgorithm_absent name impl _ Hne Hty Hp). apply HasProperty_insert_eq.
Qed.

Lemma well_formed_present_resolves (O : Object) (alg : string) :
  well_formed O -> HasProperty (obj O) alg = true ->
  exists v, SignerAlg alg O = (Ok v, O).
Proof.
  intros (Hproto & Hown) Hin. exists (Get (obj O) alg). apply SignerAlg_Ok.
  split; [reflexivity |]. split; [| reflexivity].
  unfold HasProperty, Get in *. rewrite lookup_chain_obj in *.
  destruct (own O !! alg) as [x |] eqn:Ex.
  - destruct (Hown _ _ Ex) as (v & -> & Hv). exact Hv.
  - rewrite Hproto in *.
    destruct (lookup_chain alg ObjectPrototype) as [[v |] |] eqn:Ep; [| | discriminate].
    + unfold ObjectPrototype, lookup_chain in Ep.
      match type of Ep with match ?m !! _ with _ => _ end = _ =>
        destruct (m !! alg) as [y |] eqn:Ey; [| discriminate]
      end.
      injection Ep as ->. apply elem_of_list_to_map_2 in Ey.
      repeat (apply elem_of_cons in Ey as [[= _ ->] | Ey]; [reflexivity |]).
      apply elem_of_cons in Ey as [[=] | Ey]. apply elem_of_nil in Ey as [].
    + unfold obj. simpl. rewrite Hproto. reflexivity.
Qed.

(** The names the loaded registry holds, own or inherited. *)
Lemma loaded_names (alg : string) :
  HasProperty (obj algorithms) alg = true <-> alg ∈ (builtin_names ++ inherited_names)%list.
Proof.
  split.
  - intros H. destruct (decide (alg ∈ (builtin_names ++ inherited_names)%list)) as [| Hout];
      [assumption |].
    exfalso. unfold HasProperty in H. rewrite lookup_chain_obj in H.
    assert (own algorithms !! alg = None) as Hown.
    { apply not_elem_of_list_to_map_1. intros Hin. apply Hout, elem_of_app. left. exact Hin. }
    assert (lookup_chain alg ObjectPrototype = None) as Hproto.
    { unfold ObjectPrototype, lookup_chain. rewrite not_elem_of_list_to_map_1; [reflexivity |].
      intros Hin. apply Hout, elem_of_app. right. exact Hin. }
    rewrite Hown in H. change (prototype algorithms) with ObjectPrototype in H.
    rewrite Hproto in H. discriminate.
  - intros H. unfold builtin_names, inherited_names in H. simpl in H.
    repeat (apply elem_of_cons in H as [-> | H]; [reflexivity |]).
    apply elem_of_nil in H as [].
Qed.

(** X3. The name guard comes first: an [alg] that is falsy or not a string is
    refused with "Invalid algorithm name", whatever [impl] is and whatever
    the registry holds, and the registry is left as it was. *)
Theorem AddSigningAlgorithm_name_guard (alg impl : JSValue) (O : Object) :
  ToBoolean alg = false \/ typeof alg <> "string" ->
  AddSigningAlgorithm alg impl O
  = (Throw (Error "Invalid algorithm name: must be a non-empty string"), O).
Proof.
  intros [Hfalsy | Hty].
  - destruct alg; try reflexivity. unfold AddSigningAlgorithm. rewrite Hfalsy. reflexivity.
  - destruct alg; try reflexivity. exfalso. apply Hty. reflexivity.
Qed.

(** X4. A registration succeeds only for a non-empty string name that is not
    in the registry and an [impl] that is a function; it then adds that
    one own property and nothing else, and every other identifier
    resolves, or fails to, exactly as before. *)
Theorem AddSigningAlgorithm_success (alg impl : JSValue) (O O' : Object) :
  AddSigningAlgorithm alg impl O = (Ok tt, O') ->
  exists name,
    alg = JSString name /\ name <> "" /\ typeof impl = "function"
    /\ HasProperty (obj O) name = false
    /\ own O' = <[name := Data impl]> (own O)
    /\ prototype O' = prototype O
    /\ forall other, other <> name -> SignerAlg other O' = (fst (SignerAlg other O), O').
Proof.
  intros H. apply AddSigningAlgorithm_Ok in H as (name & -> & Hne & Hty & Hout & ->).
  exists name. repeat split; auto.
  intros other Hother. unfold SignerAlg, mbind, M_bind, get_state.
  rewrite Get_insert_ne by (intros ->; apply Hother; reflexivity).
  destruct (negb (ToBoolean (Get (obj O) other))); reflexivity.
Qed.

(** X5. Registrations under different names commute: in either order each
    has the same outcome and the registry ends up the same. *)
Theorem registrations_commute (alg1 impl1 alg2 impl2 : JSValue) (O : Object) :
  alg1 <> alg2 ->
  let first := CallAddSigningAlgorithm alg1 impl1 in
  let second := CallAddSigningAlgorithm alg2 impl2 in
  after [first; second] O = after [second; first] O
  /\ fst (AddSigningAlgorithm alg1 impl1 (after [second] O))
     = fst (AddSigningAlgorithm alg1 impl1 O)
  /\ fst (AddSigningAlgorithm alg2 impl2 (after [first] O))
     = fst (AddSigningAlgorithm alg2 impl2 O).
Proof.
  intros Hdiff. cbn zeta.
  assert (forall a i b j, a <> b ->
            fst (AddSigningAlgorithm a i (snd (AddSigningAlgorithm b j O)))
            = fst (AddSigningAlgorithm a i O)) as Hout.
  { intros a i b j Hab. apply AddSigningAlgorithm_outcome_congr. intros name ->.
    rewrite AddSigningAlgorithm_state.
    destruct (fst (AddSigningAlgorithm b j O)); [| reflexivity].
    destruct b; try reflexivity.
    apply HasProperty_insert_ne. intros ->. apply Hab. reflexivity. }
  change (after [CallAddSigningAlgorithm alg1 impl1; CallAddSigningAlgorithm alg2 impl2] O)
    with (snd (perform (CallAddSigningAlgorithm alg2 impl2)
                 (snd (perform (CallAddSigningAlgorithm alg1 impl1) O)))).
  change (after [CallAddSigningAlgorithm alg2 impl2; CallAddSigningAlgorithm alg1 impl1] O)
    with (snd (perform (CallAddSigningAlgorithm alg1 impl1)
                 (snd (perform (CallAddSigningAlgorithm alg2 impl2) O)))).
  change (after [CallAddSigningAlgorithm alg2 impl2] O)
    with (snd (perform (CallAddSigningAlgorithm alg2 impl2) O)).
  change (after [CallAddSigningAlgorithm alg1 impl1] O)
    with (snd (perform (CallAddSigningAlgorithm alg1 impl1) O)).
  rewrite !perform_AddSigningAlgorithm_state.
  split; [| split; [apply Hout; exact Hdiff | apply Hout; congruence]].
  rewrite (AddSigningAlgorithm_state alg2 impl2 (snd (AddSigningAlgorithm alg1 impl1 O))).
  rewrite (AddSigningAlgorithm_state alg1 impl1 (snd (AddSigningAlgorithm alg2 impl2 O))).
  rewrite (Hout alg2 impl2 alg1 impl1) by congruence.
  rewrite (Hout alg1 impl1 alg2 impl2) by exact Hdiff.
  rewrite (AddSigningAlgorithm_state alg1 impl1 O), (AddSigningAlgorithm_state alg2 impl2 O).
  destruct (fst (AddSigningAlgorithm alg1 impl1 O)) as [[] | e1],
           (fst (AddSigningAlgorithm alg2 impl2 O)) as [[] | e2];
    destruct alg1, alg2; try reflexivity.
  simpl. f_equal. apply insert_insert_ne. intros ->. apply Hdiff. reflexivity.
Qed.

(** X6. The first registration of a name wins for good: after it has
    succeeded, and whatever calls follow, [SignerAlg] returns the
    registered [impl] for that name and a further registration of a
    function under it fails with "already exists". *)
Theorem first_registration_wins (name : string) (impl : JSValue) (O O' : Object) :
  AddSigningAlgorithm (JSString name) impl O = (Ok tt, O') ->
  forall (calls : list Call) (impl2 : JSValue),
    SignerAlg name (after calls O') = (Ok impl, after calls O')
    /\ (typeof impl2 = "function" ->
        AddSigningAlgorithm (JSString name) impl2 (after calls O')
        = (Throw (Error ("Algorithm '" ++ name ++ "' already exists")), after calls O')).
Proof.
  intros H calls impl2.
  apply AddSigningAlgorithm_Ok in H as (n & [= <-] & Hne & Hty & _ & ->).
  set (O1 := {| own := <[name := Data impl]> (own O); prototype := prototype O |}).
  assert (HasProperty (obj O1) name = true) as Hin by apply HasProperty_insert_eq.
  destruct (after_grows calls O1) as (Hproto & _ & Hchain).
  split.
  - apply SignerAlg_Ok. split; [| split; [apply function_truthy, Hty | reflexivity]].
    unfold Get. rewrite (Hchain name Hin).
    unfold O1. rewrite lookup_chain_obj. simpl. rewrite lookup_insert_eq. reflexivity.
  - intros Hty2. apply AddSigningAlgorithm_present; [exact Hne | exact Hty2 |].
    apply HasProperty_after, Hin.
Qed.


(** X8. Which identifiers resolve after any sequence of calls on the loaded
    registry, and to what: a name the loaded registry holds (built in or
    inherited) resolves to what it resolved to at load; any other name
    resolves exactly when some call registered it under a non-empty name
    with a function, and then to a function so registered. *)
Theorem resolvable_after_calls (calls : list Call) (alg : string) :
  let O := after calls algorithms in
  let loaded := (alg ∈ (builtin_names ++ inherited_names)%list) in
  let registered impl :=
    (alg <> "" /\ typeof impl = "function"
     /\ CallAddSigningAlgorithm (JSString alg) impl ∈ calls) in
  ((exists v, SignerAlg alg O = (Ok v, O)) <-> loaded \/ exists impl, registered impl)
  /\ (forall v, SignerAlg alg O = (Ok v, O) ->
        (loaded /\ SignerAlg alg algorithms = (Ok v, algorithms))
        \/ (~ loaded /\ registered v)).
Proof.
  cbn zeta.
  pose proof (well_formed_after calls algorithms well_formed_algorithms) as Hwf.
  assert (forall v, SignerAlg alg (after calls algorithms) = (Ok v, after calls algorithms) ->
            (alg ∈ (builtin_names ++ inherited_names)%list
             /\ SignerAlg alg algorithms = (Ok v, algorithms))
            \/ ((alg ∉ (builtin_names ++ inherited_names)%list)
                /\ alg <> "" /\ typeof v = "function"
                /\ CallAddSigningAlgorithm (JSString alg) v ∈ calls)) as Hvalue.
  { intros v Hv.
    destruct (decide (alg ∈ (builtin_names ++ inherited_names)%list)) as [Hin | Hout].
    - left. split; [exact Hin |]. apply loaded_names in Hin.
      destruct (after_grows calls algorithms) as (Hproto & _ & Hchain).
      apply SignerAlg_Ok in Hv as (Hget & Htrue & _). apply SignerAlg_Ok.
      split; [| auto]. unfold Get in *. rewrite (Hchain alg Hin) in Hget.
      unfold obj, GetPrototypeOf in *. rewrite Hproto in Hget. exact Hget.
    - right. split; [exact Hout |].
      assert (HasProperty (obj algorithms) alg = false) as Hnot.
      { destruct (HasProperty (obj algorithms) alg) eqn:E; [| reflexivity].
        apply loaded_names in E. contradiction. }
      apply SignerAlg_Ok in Hv as (Hget & Htrue & _).
      unfold Get in Hget. rewrite lookup_chain_obj in Hget.
      destruct (own (after calls algorithms) !! alg) as [x |] eqn:Ex.
      + apply own_after_provenance in Ex as [Hloaded | (impl & -> & Hne & Hty & Hcall)].
        * exfalso. unfold HasProperty in Hnot. rewrite lookup_chain_obj, Hloaded in Hnot.
          discriminate.
        * subst v. auto.
      + exfalso. destruct Hwf as (Hproto & _). rewrite Hproto in Hget.
        unfold HasProperty in Hnot. rewrite lookup_chain_obj in Hnot.
        change (prototype algorithms) with ObjectPrototype in Hnot.
        destruct (own algorithms !! alg); [discriminate |].
        destruct (lookup_chain alg ObjectPrototype); [discriminate |].
        subst v. discriminate. }
  split; [| exact Hvalue]. split.
  - intros (v & Hv). destruct (Hvalue v Hv) as [(Hin & _) | (_ & Hreg)]; [left | right]; eauto.
  - intros [Hin | (impl & Hne & Hty & Hcall)].
    + apply well_formed_present_resolves; [exact Hwf |].
      apply HasProperty_after, loaded_names, Hin.
    + apply well_formed_present_resolves; [exact Hwf |].
      eapply HasProperty_after_registration; eassumption.
Qed.

(** X9. The names the loaded registry holds, the five built-in ones and the
    twelve it inherits from [Object.prototype] (['toString'],
    ['constructor'], ['__proto__'], ...), are closed to registration for
    good: after any sequence of calls, registering a function under one of
    them fails with "already exists", and the prototype of the registry is
    still [Object.prototype]. *)
Theorem loaded_names_cannot_be_registered (calls : list Call) (name : string)
    (impl : JSValue) :
  name ∈ (builtin_names ++ inherited_names)%list ->
  typeof impl = "function" ->
  AddSigningAlgorithm (JSString name) impl (after calls algorithms)
  = (Throw (Error ("Algorithm '" ++ name ++ "' already exists")), after calls algorithms)
  /\ prototype (after calls algorithms) = ObjectPrototype.
Proof.
  intros Hin Hty. split.
  - apply AddSigningAlgorithm_present; [| exact Hty |].
    + intros ->. apply list_elem_of_In in Hin. simpl in Hin.
      repeat (destruct Hin as [Hin | Hin]; [discriminate Hin |]). exact Hin.
    + apply HasProperty_after, loaded_names, Hin.
  - apply (well_formed_after calls algorithms well_formed_algorithms).
Qed.

(** * Further properties of the adapters *)

Section FurtherAdapterProperties.

Context {S : Type}.
Variable toJose : JSValue -> option bool -> Result string.
Variable fromJose : JSValue -> Result JSValue.

Implicit Types (payload : string) (signer : @Signer S) (s : S) (v : JSValue).

(** X10. The entries ['ES256'] and ['ES256K'] do the same thing: without the
    recoverable flag, the closure of [ES256KSignerAlg] never consults
    [fromJose] and gives, for every payload and every signer, the result
    the closure of [ES256SignerAlg] gives. *)
Theorem ES256_ES256K_same_adapter :
  exists a b : @SignerAlgorithm S,
    builtin_adapter toJose fromJose "ES256" = Some a
    /\ builtin_adapter toJose fromJose "ES256K" = Some b
    /\ forall payload signer s, a payload signer s = b payload signer s.
Proof.
  exists (ES256SignerAlg_sign toJose), (ES256KSignerAlg_sign toJose fromJose None).
  split; [apply builtin_adapter_ES256 |]. split; [apply builtin_adapter_ES256K |].
  intros payload signer s. destruct (signer payload s) as [[v | e] s'] eqn:Hs.
  - rewrite (ES256SignerAlg_sign_Ok _ _ _ _ _ _ Hs), (ES256KSignerAlg_sign_Ok _ _ _ _ _ _ _ _ Hs).
    destruct (instanceOfEcdsaSignature v) as [[] | e]; reflexivity.
  - pose proof (sign_signer_Throw toJose fromJose ES256_sign _ _ _ _ _ Hs) as H1.
    pose proof (sign_signer_Throw toJose fromJose (ES256K_sign None) _ _ _ _ _ Hs) as H2.
    simpl in H1, H2. rewrite H1, H2. reflexivity.
Qed.

(** X11. The ['ES256K-R'] adapter on a signer result that is not a structured
    signature: a failure of [fromJose], or of reading [recoveryParam] off
    its result, is the adapter's failure; and when the decoded signature
    carries a recovery param the result is returned unchanged. *)
Theorem ES256K_R_adapter_preencoded :
  exists adapter : @SignerAlgorithm S,
    builtin_adapter toJose fromJose "ES256K-R" = Some adapter
    /\ forall payload signer s s' v,
         signer payload s = (Ok v, s') ->
         instanceOfEcdsaSignature v = Ok false ->
         (forall e, fromJose v = Throw e -> adapter payload signer s = (Throw e, s'))
         /\ (forall jose e, fromJose v = Ok jose -> GetV jose "recoveryParam" = Throw e ->
               adapter payload signer s = (Throw e, s'))
         /\ (forall jose param, fromJose v = Ok jose -> GetV jose "recoveryParam" = Ok param ->
               param <> JSUndefined ->
               adapter payload signer s = (Ok v, s')).
Proof.
  eexists. split; [apply builtin_adapter_ES256K_R |].
  intros payload signer s s' v Hs Hclass.
  rewrite (ES256KSignerAlg_sign_Ok _ _ _ _ _ _ _ _ Hs), Hclass. simpl.
  split; [| split].
  - intros e ->. reflexivity.
  - intros jose e -> Hparam. simpl. rewrite Hparam. reflexivity.
  - intros jose param -> Hparam Hdef. simpl. rewrite Hparam. simpl.
    destruct param; try reflexivity. contradiction.
Qed.

(** X12. A signer that resolves with [null] makes each of the five built-in
    adapters fail with a [TypeError]: [typeof null] is ['object'], so the
    classification goes on to ['r' in null]. *)
Theorem builtin_adapters_fail_on_null (alg : string) :
  alg ∈ builtin_names ->
  exists adapter : @SignerAlgorithm S,
    builtin_adapter toJose fromJose alg = Some adapter
    /\ forall payload signer s s',
         signer payload s = (Ok JSNull, s') ->
         adapter payload signer s = (Throw TypeError, s').
Proof.
  intros H. destruct (builtin_adapter_code (S := S) toJose fromJose alg H) as (c & Hc).
  exists (sign toJose fromJose c). split; [exact Hc |].
  intros payload signer s s' Hs. destruct c as [| recoverable |]; simpl sign.
  - rewrite (ES256SignerAlg_sign_Ok _ _ _ _ _ _ Hs). reflexivity.
  - rewrite (ES256KSignerAlg_sign_Ok _ _ _ _ _ _ _ _ Hs). reflexivity.
  - rewrite (Ed25519SignerAlg_sign_Ok _ _ _ _ _ Hs). reflexivity.
Qed.

(** X13. The adapters registered as ['ES256'], ['ES256K'], ['Ed25519'] and
    ['EdDSA'] do not check that a result they pass through is a string:
    whatever the signer returns that is not an object ([undefined], a
    boolean, a number, a string, a function), and any object without
    ['r'] or without ['s'], is returned as it is. *)
Theorem unstructured_result_passes_through (alg : string) :
  alg ∈ ["ES256"; "ES256K"; "Ed25519"; "EdDSA"] ->
  exists adapter : @SignerAlgorithm S,
    builtin_adapter toJose fromJose alg = Some adapter
    /\ forall payload signer s s' v,
         signer payload s = (Ok v, s') ->
         typeof v <> "object"
         \/ (is_object v = true /\ (HasProperty v "r" = false \/ HasProperty v "s" = false)) ->
         adapter payload signer s = (Ok v, s').
Proof.
  intros H.
  assert (forall v,
            typeof v <> "object"
            \/ (is_object v = true /\ (HasProperty v "r" = false \/ HasProperty v "s" = false)) ->
            instanceOfEcdsaSignature v = Ok false) as Hclass.
  { intros v [Hty | (Hobj & Hmiss)].
    - destruct v; try reflexivity; exfalso; apply Hty; reflexivity.
    - destruct v; try discriminate. rewrite instanceOfEcdsaSignature_object.
      destruct Hmiss as [-> | ->]; [reflexivity | rewrite andb_false_r; reflexivity]. }
  repeat (apply elem_of_cons in H as [-> | H]).
  - eexists. split; [apply builtin_adapter_ES256 |]. intros payload signer s s' v Hs Hv.
    rewrite (ES256SignerAlg_sign_Ok _ _ _ _ _ _ Hs), (Hclass v Hv). reflexivity.
  - eexists. split; [apply builtin_adapter_ES256K |]. intros payload signer s s' v Hs Hv.
    rewrite (ES256KSignerAlg_sign_Ok _ _ _ _ _ _ _ _ Hs), (Hclass v Hv). reflexivity.
  - eexists. split; [apply builtin_adapter_Ed25519 |]. intros payload signer s s' v Hs Hv.
    rewrite (Ed25519SignerAlg_sign_Ok _ _ _ _ _ Hs), (Hclass v Hv). reflexivity.
  - eexists. split; [apply builtin_adapter_EdDSA |]. intros payload signer s s' v Hs Hv.
    rewrite (Ed25519SignerAlg_sign_Ok _ _ _ _ _ Hs), (Hclass v Hv). reflexivity.
  - apply elem_of_nil in H as [].
Qed.

End FurtherAdapterProperties.

(** * Further instances *)


Lemma AddSigningAlgorithm_name_guard_witness :
  AddSigningAlgorithm (JSNumber 7) caller_function algorithms
  = (Throw (Error "Invalid algorithm name: must be a non-empty string"), algorithms)
  /\ AddSigningAlgorithm (JSString "") (JSString "not a function") algorithms
     = (Throw (Error "Invalid algorithm name: must be a non-empty string"), algorithms).
Proof.
  split.
  - apply AddSigningAlgorithm_name_guard. right. discriminate.
  - apply AddSigningAlgorithm_name_guard. left. reflexivity.
Defined.

Lemma AddSigningAlgorithm_success_witness :
  let O' := after [CallAddSigningAlgorithm (JSString "PS256") caller_function] algorithms in
  own O' = <["PS256" := Data caller_function]> (own algorithms)
  /\ SignerAlg "ES256" O' = (Ok (JSFunction (Closure 0 ES256_sign)), O')
  /\ SignerAlg "RS256" O'
     = (Throw (Error "not_supported: Unsupported algorithm RS256"), O').
Proof.
  intros O'.
  destruct (AddSigningAlgorithm_success (JSString "PS256") caller_function algorithms O' eq_refl)
    as (name & [= <-] & _ & _ & _ & Hown & _ & Hframe).
  split; [exact Hown |]. split.
  - apply (Hframe "ES256"). discriminate.
  - apply (Hframe "RS256"). discriminate.
Defined.

Lemma registrations_commute_witness :
  after [CallAddSigningAlgorithm (JSString "PS256") caller_function;
         CallAddSigningAlgorithm (JSString "RS256") (JSFunction (Foreign 1))] algorithms
  = after [CallAddSigningAlgorithm (JSString "RS256") (JSFunction (Foreign 1));
           CallAddSigningAlgorithm (JSString "PS256") caller_function] algorithms.
Proof.
  apply (registrations_commute (JSString "PS256") caller_function
           (JSString "RS256") (JSFunction (Foreign 1)) algorithms).
  discriminate.
Defined.

Lemma first_registration_wins_witness :
  let O' := after [CallAddSigningAlgorithm (JSString "PS256") caller_function] algorithms in
  let calls := [CallSignerAlg "PS256";
                CallAddSigningAlgorithm (JSString "RS256") (JSFunction (Foreign 1))] in
  SignerAlg "PS256" (after calls O') = (Ok caller_function, after calls O')
  /\ AddSigningAlgorithm (JSString "PS256") (JSFunction (Foreign 2)) (after calls O')
     = (Throw (Error "Algorithm 'PS256' already exists"), after calls O').
Proof.
  intros O' calls.
  destruct (first_registration_wins "PS256" caller_function algorithms O' eq_refl
              calls (JSFunction (Foreign 2))) as (Hresolve & Hfail).
  split; [exact Hresolve | apply Hfail; reflexivity].
Defined.


Lemma resolvable_after_calls_witness :
  let O := after [CallAddSigningAlgorithm (JSString "PS256") caller_function] algorithms in
  exists v, SignerAlg "PS256" O = (Ok v, O).
Proof.
  intros O.
  destruct (resolvable_after_calls
              [CallAddSigningAlgorithm (JSString "PS256") caller_function] "PS256")
    as (Hiff & _).
  apply Hiff. right. exists caller_function.
  split; [discriminate |]. split; [reflexivity | apply list_elem_of_here].
Defined.

Lemma ES256K_R_adapter_preencoded_witness :
  exists adapter,
    builtin_adapter toJose_model fromJose_model "ES256K-R" = Some adapter
    /\ adapter "header.payload" (returning (JSString sample_jose_recoverable)) tt
       = (Ok (JSString sample_jose_recoverable), tt)
    /\ adapter "header.payload" (returning (JSString "not base64url!")) tt
       = (Throw TypeError, tt).
Proof.
  destruct (ES256K_R_adapter_preencoded (S := unit) toJose_model fromJose_model)
    as (adapter & Ha & Hrun).
  exists adapter. split; [exact Ha |]. split.
  - destruct (Hrun "header.payload" (returning (JSString sample_jose_recoverable)) tt tt
                (JSString sample_jose_recoverable) eq_refl eq_refl) as (_ & _ & H).
    apply (H (sample_signature (Some 1%Z)) (JSNumber 1));
      [vm_compute; reflexivity | reflexivity | discriminate].
  - destruct (Hrun "header.payload" (returning (JSString "not base64url!")) tt tt
                (JSString "not base64url!") eq_refl eq_refl) as (H & _).
    apply H. reflexivity.
Defined.

Lemma builtin_adapters_fail_on_null_witness :
  exists adapter,
    builtin_adapter toJose_model fromJose_model "EdDSA" = Some adapter
    /\ adapter "header.payload" (returning JSNull) tt = (Throw TypeError, tt).
Proof.
  destruct (builtin_adapters_fail_on_null (S := unit) toJose_model fromJose_model "EdDSA")
    as (adapter & Ha & Hrun).
  { apply list_elem_of_In. vm_compute. tauto. }
  exists adapter. split; [exact Ha |]. apply Hrun with (s' := tt). reflexivity.
Defined.

Lemma unstructured_result_passes_through_witness :
  exists adapter,
    builtin_adapter toJose_model fromJose_model "EdDSA" = Some adapter
    /\ adapter "header.payload" (returning JSUndefined) tt = (Ok JSUndefined, tt)
    /\ adapter "header.payload" (returning (JSNumber 42)) tt = (Ok (JSNumber 42), tt).
Proof.
  destruct (unstructured_result_passes_through (S := unit) toJose_model fromJose_model "EdDSA")
    as (adapter & Ha & Hrun).
  { apply list_elem_of_In. vm_compute. tauto. }
  exists adapter. split; [exact Ha |]. split.
  - apply (Hrun "header.payload" (returning JSUndefined) tt tt JSUndefined eq_refl).
    left. discriminate.
  - apply (Hrun "header.payload" (returning (JSNumber 42)) tt tt (JSNumber 42) eq_refl).
    left. discriminate.
Defined.

Lemma loaded_names_cannot_be_registered_witness :
  let O := after [CallAddSigningAlgorithm (JSString "PS256") caller_function] algorithms in
  AddSigningAlgorithm (JSString "__proto__") caller_function O
  = (Throw (Error "Algorithm '__proto__' already exists"), O)
  /\ prototype O = ObjectPrototype.
Proof.
  intros O.
  apply (loaded_names_cannot_be_registered
           [CallAddSigningAlgorithm (JSString "PS256") caller_function]
           "__proto__" caller_function).
  - apply list_elem_of_In. vm_compute. tauto.
  - reflexivity.
Defined.
